(** * Request validation and upload pipeline of the Gemini Flash API gateway

    A shallow embedding of [index.js]: the prompt check, the upload
    middleware built by [createUploadMiddleware], and the four POST routes,
    followed by the properties of the validation pipeline.

    JavaScript strings are modelled by [string], one character per code
    unit, so the model covers the strings whose code units are below 256
    (the Latin-1 range; header values such as a part's content type are
    always in it).  [trim] and [toLowerCase] are exact on that range. *)

From Stdlib Require Import Strings.String Strings.Ascii Strings.Byte List Arith NArith Bool Lia.
From Stdlib Require Import Numbers.DecimalString ZArith Zify.
Import ListNotations.

Local Open Scope string_scope.
Local Set Warnings "-register-all".

(** ** JavaScript strings and values *)

Module JS.

(** White space and line terminators of ECMAScript below U+0100:
    TAB, LF, VT, FF, CR, SP and NBSP. *)
Definition isWhiteSpace (c : ascii) : bool :=
  let n := N_of_ascii c in
  (((9 <=? n) && (n <=? 13)) || (n =? 32) || (n =? 160))%N.

Fixpoint trimStart (s : string) : string :=
  match s with
  | EmptyString => EmptyString
  | String c s' => if isWhiteSpace c then trimStart s' else s
  end.

Fixpoint trimEnd (s : string) : string :=
  match s with
  | EmptyString => EmptyString
  | String c s' =>
      match trimEnd s' with
      | EmptyString => if isWhiteSpace c then EmptyString else String c EmptyString
      | t => String c t
      end
  end.

(** [String.prototype.trim] *)
Definition trim (s : string) : string := trimEnd (trimStart s).

(** Lower-case mapping of one code unit below U+0100: A-Z, and the
    accented capitals U+00C0-U+00DE except the multiplication sign. *)
Definition toLowerCaseChar (c : ascii) : ascii :=
  let n := N_of_ascii c in
  if (((65 <=? n) && (n <=? 90))
      || ((192 <=? n) && (n <=? 222) && negb (n =? 215)))%N
  then ascii_of_N (n + 32)
  else c.

(** [String.prototype.toLowerCase] *)
Fixpoint toLowerCase (s : string) : string :=
  match s with
  | EmptyString => EmptyString
  | String c s' => String (toLowerCaseChar c) (toLowerCase s')
  end.

(** [Array.prototype.includes] on an array of strings *)
Fixpoint includes (xs : list string) (x : string) : bool :=
  match xs with
  | [] => false
  | y :: ys => String.eqb y x || includes ys x
  end.

(** [Array.prototype.join] *)
Fixpoint join (sep : string) (xs : list string) : string :=
  match xs with
  | [] => ""
  | [x] => x
  | x :: ys => x ++ sep ++ join sep ys
  end.

(** The values a parsed body can hold.  A number keeps its literal: no
    route looks inside it.  An object lists its own properties, the
    first binding of a key being the one a lookup sees. *)
Inductive value : Type :=
| VUndefined
| VNull
| VBool (b : bool)
| VNumber (literal : string)
| VString (s : string)
| VArray (items : list value)
| VObject (props : list (string * value)).

Definition typeof (v : value) : string :=
  match v with
  | VUndefined => "undefined"
  | VBool _ => "boolean"
  | VNumber _ => "number"
  | VString _ => "string"
  | VNull | VArray _ | VObject _ => "object"
  end.

(** [a ?? b] *)
Definition nullish (a b : value) : value :=
  match a with
  | VUndefined | VNull => b
  | _ => a
  end.

Fixpoint lookup (props : list (string * value)) (key : string) : value :=
  match props with
  | [] => VUndefined
  | (k, v) :: rest => if String.eqb k key then v else lookup rest key
  end.

(** Reading property [key] of [v] for the keys the routes read, none of
    which is a built-in of the wrappers of primitives or of arrays. *)
Definition get (v : value) (key : string) : value :=
  match v with
  | VObject props => lookup props key
  | _ => VUndefined
  end.

(** *** [Buffer.prototype.toString('base64')] *)

Definition base64Alphabet : string :=
  "ABCDEFGHIJKLMNOPQRSTUVWXYZabcdefghijklmnopqrstuvwxyz0123456789+/".

Definition base64Digit (n : N) : ascii :=
  match String.get (N.to_nat n) base64Alphabet with
  | Some c => c
  | None => "="%char
  end.

Fixpoint toBase64 (bytes : list byte) : string :=
  match bytes with
  | [] => ""
  | [a] =>
      let n := (Byte.to_N a * 65536)%N in
      String (base64Digit (n / 262144))
        (String (base64Digit ((n / 4096) mod 64)) "==")
  | [a; b] =>
      let n := (Byte.to_N a * 65536 + Byte.to_N b * 256)%N in
      String (base64Digit (n / 262144))
        (String (base64Digit ((n / 4096) mod 64))
           (String (base64Digit ((n / 64) mod 64)) "="))
  | a :: b :: c :: rest =>
      let n := (Byte.to_N a * 65536 + Byte.to_N b * 256 + Byte.to_N c)%N in
      String (base64Digit (n / 262144))
        (String (base64Digit ((n / 4096) mod 64))
           (String (base64Digit ((n / 64) mod 64))
              (String (base64Digit (n mod 64)) (toBase64 rest))))
  end.

(** Number of bytes of a stream or buffer. *)
Definition byteLength (bytes : list byte) : N :=
  fold_left (fun n _ => N.succ n) bytes 0%N.

End JS.
Import JS.


(** ** Errors, responses and the effects of a handler *)

Inductive MulterCode : Type :=
| LIMIT_FILE_SIZE
| LIMIT_UNEXPECTED_FILE.

(** An [Error] built with [new Error(message)], or a [MulterError]. *)
Inductive Error : Type :=
| PlainError (msg : string)
| MulterError (code : MulterCode) (field : string).

(** [err.message]; a [MulterError] takes it from the table of the upload
    library. *)
Definition message (e : Error) : string :=
  match e with
  | PlainError msg => msg
  | MulterError LIMIT_FILE_SIZE _ => "File too large"
  | MulterError LIMIT_UNEXPECTED_FILE _ => "Unexpected field"
  end.

(** One [res.status(code).json(body)]. *)
Record Response : Type := { status : N; json : value }.

(** A part of [contents]: [{ type, text }] or [{ inlineData: { data, mimeType } }]. *)
Inductive Part : Type :=
| TextPart (type : string) (text : value)
| InlineData (data : string) (mimeType : option string).

Inductive Contents : Type :=
| Single (v : value)
| Parts (ps : list Part).

Record GenerateContentParams : Type :=
  { model : string; contents : Contents }.

(** What awaiting [ai.models.generateContent] gives: a response whose
    [text] is read, or a thrown error. *)
Inductive Outcome : Type :=
| Resolved (text : string)
| Rejected (e : Error).

(** Everything a request leaves behind: the responses sent, the calls made
    to the generation service and the lines written by [console.error],
    each in order. *)
Record World : Type :=
  { responses : list Response;
    calls : list GenerateContentParams;
    console : list (string * Error) }.

Definition quiet : World := {| responses := []; calls := []; console := [] |}.

(** How a block ends: it falls through with a value, executes [return],
    or throws. *)
Inductive Completion (A : Type) : Type :=
| Normal (a : A)
| Returned
| Thrown (e : Error).
Arguments Normal {A} a.
Arguments Returned {A}.
Arguments Thrown {A} e.

Definition Handler (A : Type) : Type := World -> Completion A * World.

Definition ret {A} (a : A) : Handler A := fun w => (Normal a, w).

Definition bind {A B} (m : Handler A) (k : A -> Handler B) : Handler B :=
  fun w =>
    match m w with
    | (Normal a, w') => k a w'
    | (Returned, w') => (Returned, w')
    | (Thrown e, w') => (Thrown e, w')
    end.

Declare Scope handler_scope.
Delimit Scope handler_scope with handler.
Notation "x <- m ;; k" := (bind m (fun x => k))
  (at level 61, m at next level, right associativity) : handler_scope.
Notation "m ;; k" := (bind m (fun _ => k))
  (at level 61, right associativity) : handler_scope.
Local Open Scope handler_scope.

(** [return;] *)
Definition return_ {A} : Handler A := fun w => (Returned, w).

(** [try { body } catch (error) { handler }] *)
Definition try_catch {A} (body : Handler A) (handler : Error -> Handler A)
  : Handler A :=
  fun w =>
    match body w with
    | (Thrown e, w') => handler e w'
    | r => r
    end.

(** [res.status(code).json(body)] *)
Definition res_status_json (code : N) (body : value) : Handler unit :=
  fun w =>
    (Normal tt,
     {| responses := responses w ++ [{| status := code; json := body |}];
        calls := calls w;
        console := console w |}).

(** [console.error(label, error)] *)
Definition console_error (label : string) (error : Error) : Handler unit :=
  fun w =>
    (Normal tt,
     {| responses := responses w;
        calls := calls w;
        console := console w ++ [(label, error)] |}).

(** ** Requests *)

(** What the upload library knows of a file part before reading its body. *)
Record FileInfo : Type :=
  { fieldname : string; originalname : string; mimetype : option string }.

(** A file part of a multipart form: its headers and its bytes. *)
Record FilePart : Type := { info : FileInfo; stream : list byte }.

(** A multipart form: the object its text fields build, and its file parts
    in order of arrival.  Every file part carries a file name. *)
Record Form : Type :=
  { fields : list (string * value); files : list FilePart }.

(** [req.file] under memory storage. *)
Record File : Type := { details : FileInfo; buffer : list byte; size : N }.

Inductive Payload : Type :=
| Json (v : value)
| Multipart (f : Form)
| Other.

(** The part of [req] the routes read. *)
Record Request : Type :=
  { payload : Payload; body : value; file : option File }.

(** A request as it arrives, and after [app.use(express.json())]: the body
    is parsed when the payload is JSON and left undefined otherwise. *)
Definition express_json (p : Payload) : Request :=
  {| payload := p;
     body := match p with Json v => v | _ => VUndefined end;
     file := None |}.

(** ** The upload library

    [multer({ storage: memoryStorage(), limits: { fileSize }, fileFilter })
    .single(fieldName)], as far as the routes depend on it.  A request that
    is not multipart goes through untouched.  Otherwise [req.body] becomes
    the object of the text fields and the file parts are handled in order:
    a part under another field, or a second part under [fieldName], is
    unexpected; then [fileFilter] is asked, from the part's headers alone,
    before any of its bytes is read; an accepted part is then streamed into
    memory under the size limit.  The first error ends the upload.

    The size limit itself is enforced by the multipart parser the library
    hands [limits.fileSize] to.  [signalsLimit limit n] tells whether that
    parser signals the limit on a file part of [n] bytes; the properties
    below state what they assume of it. *)

Module Multer.
Section Single.

Variable signalsLimit : N -> N -> bool.
Variable fieldName : string.
Variable fileFilter : FileInfo -> Error + bool.
Variable fileSize : N.

Fixpoint receive (filesLeft : N) (parts : list FilePart)
  (stored : option File) : Error + option File :=
  match parts with
  | [] => inr stored
  | p :: rest =>
      let file := info p in
      if negb (String.eqb (fieldname file) fieldName) || (filesLeft <=? 0)%N
      then inl (MulterError LIMIT_UNEXPECTED_FILE (fieldname file))
      else
        match fileFilter file with
        | inl err => inl err
        | inr false => receive (filesLeft - 1) rest stored
        | inr true =>
            let n := byteLength (stream p) in
            if signalsLimit fileSize n
            then inl (MulterError LIMIT_FILE_SIZE (fieldname file))
            else receive (filesLeft - 1) rest
                   (Some {| details := file; buffer := stream p; size := n |})
        end
  end.

Definition single (req : Request) : Error + Request :=
  match payload req with
  | Multipart form =>
      match receive 1 (files form) None with
      | inl err => inl err
      | inr stored =>
          inr {| payload := payload req;
                 body := VObject (fields form);
                 file := stored |}
      end
  | _ => inr req
  end.

End Single.
End Multer.

(** ** The server: [index.js] *)

Definition MAX_FILE_SIZE_MB : N := 5.
Definition MAX_FILE_SIZE_BYTES : N := MAX_FILE_SIZE_MB * 1024 * 1024.

Definition IMAGE_MIME_TYPES : list string :=
  ["image/png"; "image/jpeg"; "image/jpg"; "image/webp"].

Definition DOCUMENT_MIME_TYPES : list string :=
  ["application/pdf";
   "application/msword";
   "application/vnd.openxmlformats-officedocument.wordprocessingml.document";
   "text/plain"].

Definition AUDIO_MIME_TYPES : list string :=
  ["audio/mpeg"; "audio/mp3"; "audio/wav"; "audio/x-wav"; "audio/webm";
   "audio/ogg"].

Definition GEMINI_MODEL : string := "gemini-2.5-flash".

(** A number inside a template literal. *)
Definition showN (n : N) : string := NilEmpty.string_of_uint (N.to_uint n).

(** The [fileFilter] option of [createUploadMiddleware]. *)
Definition fileFilter (allowedMimeTypes : list string) (file : FileInfo)
  : Error + bool :=
  let mimetype :=
    match mimetype file with
    | Some t => toLowerCase t
    | None => ""
    end in
  if negb (includes allowedMimeTypes mimetype)
  then inl (PlainError ("Invalid file type. Allowed types: "
                          ++ join ", " allowedMimeTypes))
  else inr true.

Definition isPromptValid (prompt : value) : bool :=
  String.eqb (typeof prompt) "string"
  && match prompt with
     | VString s => Nat.ltb 0 (String.length (trim s))
     | _ => false
     end.

(** [{ message }] and [{ result }] *)
Definition messageBody (m : string) : value := VObject [("message", VString m)].
Definition resultBody (t : string) : value := VObject [("result", VString t)].

(** [const { prompt } = req.body ?? {}] *)
Definition promptOf (req : Request) : value :=
  JS.get (nullish (body req) (VObject [])) "prompt".

(** The four POST routes. *)
Inductive Route : Type :=
| POST_generate_text
| POST_generate_from_image
| POST_generate_from_document
| POST_generate_from_audio.

Section Server.

(** The generation service behind [ai.models.generateContent]. *)
Variable ai : GenerateContentParams -> Outcome.

(** The size test of the multipart parser (see [Multer]). *)
Variable signalsLimit : N -> N -> bool.

(** [await ai.models.generateContent(params)], giving [response.text]. *)
Definition generateContent (params : GenerateContentParams) : Handler string :=
  fun w =>
    let w' := {| responses := responses w;
                 calls := calls w ++ [params];
                 console := console w |} in
    match ai params with
    | Resolved text => (Normal text, w')
    | Rejected e => (Thrown e, w')
    end.

(** The middleware returned by [createUploadMiddleware]: it answers 400
    itself on an upload error and otherwise calls [next()], which is the
    normal completion carrying the request the route handler sees. *)
Definition createUploadMiddleware (fieldName : string)
  (allowedMimeTypes : list string) (req : Request) : Handler Request :=
  match Multer.single signalsLimit fieldName (fileFilter allowedMimeTypes)
          MAX_FILE_SIZE_BYTES req with
  | inl err =>
      let message :=
        match err with
        | MulterError LIMIT_FILE_SIZE _ =>
            "File size exceeds " ++ showN MAX_FILE_SIZE_MB ++ "MB limit"
        | _ => message err
        end in
      res_status_json 400 (messageBody message) ;; return_
  | inr req' => ret req'
  end.

Definition uploadImage := createUploadMiddleware "image" IMAGE_MIME_TYPES.
Definition uploadDocument := createUploadMiddleware "document" DOCUMENT_MIME_TYPES.
Definition uploadAudio := createUploadMiddleware "audio" AUDIO_MIME_TYPES.

(** Handler of [app.post('/generate-text', ...)] *)
Definition generate_text (req : Request) : Handler unit :=
  try_catch
    (let prompt := promptOf req in
     if negb (isPromptValid prompt)
     then res_status_json 400 (messageBody "prompt is required") ;; return_
     else
       text <- generateContent
                 {| model := GEMINI_MODEL; contents := Single prompt |} ;;
       res_status_json 200 (resultBody text))
    (fun error =>
       console_error "Error generating text:" error ;;
       res_status_json 500 (messageBody (message error))).

(** Handler of [app.post('/generate-from-image', uploadImage, ...)] *)
Definition generate_from_image (req : Request) : Handler unit :=
  try_catch
    (let prompt := promptOf req in
     if negb (isPromptValid prompt)
     then res_status_json 400 (messageBody "prompt is required") ;; return_
     else
       match file req with
       | None =>
           res_status_json 400 (messageBody "image file is required") ;; return_
       | Some f =>
           let base64Image := toBase64 (buffer f) in
           let mimetype := mimetype (details f) in
           text <- generateContent
                     {| model := GEMINI_MODEL;
                        contents :=
                          Parts [TextPart "text" prompt;
                                 InlineData base64Image mimetype] |} ;;
           res_status_json 200 (resultBody text)
       end)
    (fun error =>
       console_error "Error generating image:" error ;;
       res_status_json 500 (messageBody (message error))).

(** Handler of [app.post('/generate-from-document', uploadDocument, ...)] *)
Definition generate_from_document (req : Request) : Handler unit :=
  try_catch
    (let prompt := promptOf req in
     if negb (isPromptValid prompt)
     then res_status_json 400 (messageBody "prompt is required") ;; return_
     else
       match file req with
       | None =>
           res_status_json 400 (messageBody "document file is required") ;; return_
       | Some f =>
           let base64Document := toBase64 (buffer f) in
           let mimetype := mimetype (details f) in
           text <- generateContent
                     {| model := GEMINI_MODEL;
                        contents :=
                          Parts [TextPart "text"
                                   (nullish prompt
                                      (VString "Please summarize the content of the document."));
                                 InlineData base64Document mimetype] |} ;;
           res_status_json 200 (resultBody text)
       end)
    (fun error =>
       console_error "Error generating from document:" error ;;
       res_status_json 500 (messageBody (message error))).

(** Handler of [app.post('/generate-from-audio', uploadAudio, ...)] *)
Definition generate_from_audio (req : Request) : Handler unit :=
  try_catch
    (let prompt := promptOf req in
     if negb (isPromptValid prompt)
     then res_status_json 400 (messageBody "prompt is required") ;; return_
     else
       match file req with
       | None =>
           res_status_json 400 (messageBody "audio file is required") ;; return_
       | Some f =>
           let base64Audio := toBase64 (buffer f) in
           let mimetype := mimetype (details f) in
           text <- generateContent
                     {| model := GEMINI_MODEL;
                        contents :=
                          Parts [TextPart "text"
                                   (nullish prompt
                                      (VString "Please transcribe the audio content."));
                                 InlineData base64Audio mimetype] |} ;;
           res_status_json 200 (resultBody text)
       end)
    (fun error =>
       console_error "Error generating from audio:" error ;;
       res_status_json 500 (messageBody (message error))).

(** [app.post(path, middleware..., handler)] behind [app.use(express.json())]:
    the handler runs when every middleware before it called [next()]. *)
Definition app (route : Route) (p : Payload) : Handler unit :=
  let req := express_json p in
  match route with
  | POST_generate_text => generate_text req
  | POST_generate_from_image =>
      req' <- uploadImage req ;; generate_from_image req'
  | POST_generate_from_document =>
      req' <- uploadDocument req ;; generate_from_document req'
  | POST_generate_from_audio =>
      req' <- uploadAudio req ;; generate_from_audio req'
  end.

(** What serving one request leaves behind. *)
Definition serve (route : Route) (p : Payload) : World :=
  snd (app route p quiet).

End Server.


(** ** Vocabulary of the properties *)

(** The three kinds of attachment, with the field and the allow-list that
    [createUploadMiddleware] is applied to for each, and its route. *)
Inductive Category : Type := Image | Document | Audio.

Definition fieldOf (c : Category) : string :=
  match c with
  | Image => "image"
  | Document => "document"
  | Audio => "audio"
  end.

Definition allowList (c : Category) : list string :=
  match c with
  | Image => IMAGE_MIME_TYPES
  | Document => DOCUMENT_MIME_TYPES
  | Audio => AUDIO_MIME_TYPES
  end.

Definition routeOf (c : Category) : Route :=
  match c with
  | Image => POST_generate_from_image
  | Document => POST_generate_from_document
  | Audio => POST_generate_from_audio
  end.

(** The upload middleware of a route, if it has one. *)
Definition uploadOf (signalsLimit : N -> N -> bool) (route : Route)
  : option (Request -> Handler Request) :=
  match route with
  | POST_generate_text => None
  | POST_generate_from_image => Some (uploadImage signalsLimit)
  | POST_generate_from_document => Some (uploadDocument signalsLimit)
  | POST_generate_from_audio => Some (uploadAudio signalsLimit)
  end.

(** The handler of a route. *)
Definition handlerOf (ai : GenerateContentParams -> Outcome) (route : Route)
  : Request -> Handler unit :=
  match route with
  | POST_generate_text => generate_text ai
  | POST_generate_from_image => generate_from_image ai
  | POST_generate_from_document => generate_from_document ai
  | POST_generate_from_audio => generate_from_audio ai
  end.

(** The request passes the upload gate of the route: the middleware, if
    any, calls [next()], and [req] is what the handler then sees. *)
Definition passesGate (signalsLimit : N -> N -> bool) (route : Route)
  (p : Payload) (req : Request) : Prop :=
  match uploadOf signalsLimit route with
  | None => req = express_json p
  | Some upload => upload (express_json p) quiet = (Normal req, quiet)
  end.

(** The request carries the attachment the route asks for, if it asks for
    one. *)
Definition hasAttachment (route : Route) (req : Request) : Prop :=
  match route with
  | POST_generate_text => True
  | _ => file req <> None
  end.

(** The declared content type, a missing one read as the empty string. *)
Definition declaredType (file : FileInfo) : string :=
  match mimetype file with
  | Some t => t
  | None => ""
  end.

(** A string made of white space only (the empty string included). *)
Fixpoint allWhiteSpace (s : string) : bool :=
  match s with
  | EmptyString => true
  | String c s' => isWhiteSpace c && allWhiteSpace s'
  end.

(** The text a call hands to the generation service. *)
Definition textSegment (params : GenerateContentParams) : option value :=
  match contents params with
  | Single v => Some v
  | Parts (TextPart _ text :: _) => Some text
  | Parts _ => None
  end.

(** The world after exactly one response and the given calls. *)
Definition answered (code : N) (body : value)
  (made : list GenerateContentParams) (logged : list (string * Error)) : World :=
  {| responses := [{| status := code; json := body |}];
     calls := made;
     console := logged |}.

(** The prompt the caller sent: the [prompt] member of a JSON body, or the
    [prompt] text field of a multipart form. *)
Definition suppliedPrompt (p : Payload) : value :=
  match p with
  | Json v => JS.get (nullish v (VObject [])) "prompt"
  | Multipart form => lookup (fields form) "prompt"
  | Other => VUndefined
  end.

(** The request gets as far as the call to the generation service: it
    passes the gate, its prompt is valid and its attachment is there. *)
Definition reachesGeneration (signalsLimit : N -> N -> bool) (route : Route)
  (p : Payload) (req : Request) : Prop :=
  passesGate signalsLimit route p req
  /\ isPromptValid (promptOf req) = true
  /\ hasAttachment route req.

(** *** Sample inputs *)

(** Two size tests a multipart parser may implement: signal the limit when
    the part is longer than the limit, or as soon as its length reaches it. *)
Definition strictLimit (limit n : N) : bool := (limit <? n)%N.
Definition reachLimit (limit n : N) : bool := (limit <=? n)%N.

(** Stub generation services. *)
Definition replies (text : string) : GenerateContentParams -> Outcome :=
  fun _ => Resolved text.
Definition fails (msg : string) : GenerateContentParams -> Outcome :=
  fun _ => Rejected (PlainError msg).

Definition zeros (n : N) : list byte := N.iter n (cons x00) [].
Arguments zeros : simpl never.

Definition filePart (field name type : string) (bytes : list byte) : FilePart :=
  {| info := {| fieldname := field; originalname := name; mimetype := Some type |};
     stream := bytes |}.

Definition upload (prompt : list (string * value)) (part : FilePart) : Payload :=
  Multipart {| fields := prompt; files := [part] |}.

(** A file part of 5 * 1024 * 1024 + 1 bytes declared as HTML, and an image
    of exactly 5 * 1024 * 1024 bytes. *)
Definition oversizedHtml : FilePart :=
  filePart "image" "page.html" "text/html" (zeros 5242881).
Definition boundaryPng : FilePart :=
  filePart "image" "large.png" "image/png" (zeros 5242880).
Definition oversizedPng : FilePart :=
  filePart "image" "huge.png" "image/png" (zeros 5242881).

Definition pdf : FilePart :=
  filePart "document" "notes.pdf" "application/pdf" ["%"; "P"; "D"; "F"]%byte.
Definition png : FilePart :=
  filePart "image" "cat.png" "image/png" [x89; "P"; "N"; "G"]%byte.
Definition mp3 : FilePart :=
  filePart "audio" "talk.mp3" "audio/mpeg" ["I"; "D"; "3"]%byte.


(** ** The rest of [index.js] *)

(** Handler of [app.get('/', ...)] *)
Definition get_root : Handler unit :=
  res_status_json 200 (messageBody "Gemini Flash API is running").

(** *** Start-up

    The statements of the module outside the routes: the check of the API
    key, which ends the process, and the port handed to [app.listen]. *)

(** [process.env]: a variable holds a string or is not set. *)
Definition Env : Type := string -> option string.

(** [!v] for [v] a string or [undefined]: only the empty string and
    [undefined] are falsy. *)
Definition falsy (v : option string) : bool :=
  match v with
  | None => true
  | Some s => String.eqb s ""
  end.

(** The value handed to [app.listen]: a string of the environment, or a
    number. *)
Inductive Port : Type :=
| PortString (s : string)
| PortNumber (n : N).

(** [v || n] for [v] a string or [undefined] *)
Definition orNumber (v : option string) (n : N) : Port :=
  match v with
  | Some s => if falsy v then PortNumber n else PortString s
  | None => PortNumber n
  end.

(** A port inside a template literal. *)
Definition showPort (port : Port) : string :=
  match port with
  | PortString s => s
  | PortNumber n => showN n
  end.

(** How the module ends: [process.exit(code)] after the lines written by
    [console.error], or a server whose client was built with [apiKey],
    listening on [port], after the lines written by [console.log]. *)
Inductive Process : Type :=
| Exited (code : N) (stderr : list string)
| Listening (apiKey : option string) (port : Port) (stdout : list string).

Definition main (env : Env) : Process :=
  let geminiApiKey := env "GEMINI_API_KEY" in
  if falsy geminiApiKey
  then Exited 1
         ["GEMINI_API_KEY is not set. Please configure it before starting the server."]
  else
    let port := orNumber (env "PORT") 3000 in
    Listening geminiApiKey port ["Server is running on port " ++ showPort port].

(** *** Reading base64 back

    The inverse of [toBase64], used to state that the encoding loses
    nothing. *)

Fixpoint indexFrom (i : N) (c : ascii) (s : string) : option N :=
  match s with
  | EmptyString => None
  | String d s' => if Ascii.eqb c d then Some i else indexFrom (N.succ i) c s'
  end.

(** The number a base64 digit stands for. *)
Definition base64Value (c : ascii) : option N := indexFrom 0 c base64Alphabet.

Fixpoint fromBase64 (s : string) : option (list byte) :=
  match s with
  | EmptyString => Some []
  | String c0 (String c1 (String c2 (String c3 rest))) =>
      match base64Value c0, base64Value c1 with
      | Some d0, Some d1 =>
          if Ascii.eqb c2 "=" then
            if Ascii.eqb c3 "=" && String.eqb rest "" then
              option_map (fun a => [a]) (Byte.of_N ((d0 * 64 + d1) / 16))
            else None
          else
            match base64Value c2 with
            | Some d2 =>
                let m := ((d0 * 64 + d1) * 64 + d2)%N in
                if Ascii.eqb c3 "=" then
                  if String.eqb rest "" then
                    match Byte.of_N (m / 1024), Byte.of_N ((m / 4) mod 256) with
                    | Some a, Some b => Some [a; b]
                    | _, _ => None
                    end
                  else None
                else
                  match base64Value c3 with
                  | Some d3 =>
                      let n := (m * 64 + d3)%N in
                      match Byte.of_N (n / 65536), Byte.of_N ((n / 256) mod 256),
                            Byte.of_N (n mod 256), fromBase64 rest with
                      | Some a, Some b, Some c, Some bytes => Some (a :: b :: c :: bytes)
                      | _, _, _, _ => None
                      end
                  | None => None
                  end
            | None => None
            end
      | _, _ => None
      end
  | _ => None
  end.

(** *** Vocabulary of the further properties *)



(** ** Properties *)

(** *** The model on sample inputs *)

Example trim_example :
  trim (String "009" "  hi " ++ String "010" "") = "hi".
Proof. reflexivity. Qed.

Example trim_keeps_inner_space : trim " a b " = "a b".
Proof. reflexivity. Qed.

Example toLowerCase_example : toLowerCase "Image/PNG" = "image/png".
Proof. reflexivity. Qed.

Example toBase64_Man : toBase64 ["M"; "a"; "n"]%byte = "TWFu".
Proof. reflexivity. Qed.

Example toBase64_Ma : toBase64 ["M"; "a"]%byte = "TWE=".
Proof. reflexivity. Qed.

Example toBase64_M : toBase64 ["M"]%byte = "TQ==".
Proof. reflexivity. Qed.

Example MAX_FILE_SIZE_BYTES_value : MAX_FILE_SIZE_BYTES = 5242880%N.
Proof. reflexivity. Qed.

Example generate_text_hello :
  serve (replies "hi there") strictLimit POST_generate_text
    (Json (VObject [("prompt", VString "hello")]))
  = answered 200 (VObject [("result", VString "hi there")])
      [{| model := "gemini-2.5-flash"; contents := Single (VString "hello") |}]
      [].
Proof. reflexivity. Qed.

Example generate_text_empty_body :
  serve (replies "hi there") strictLimit POST_generate_text (Json (VObject []))
  = answered 400 (VObject [("message", VString "prompt is required")]) [] [].
Proof. reflexivity. Qed.

Example generate_from_audio_quota :
  serve (fails "quota exceeded") strictLimit POST_generate_from_audio
    (upload [("prompt", VString "transcribe")] mp3)
  = answered 500 (VObject [("message", VString "quota exceeded")])
      [{| model := "gemini-2.5-flash";
          contents := Parts [TextPart "text" (VString "transcribe");
                             InlineData "SUQz" (Some "audio/mpeg")] |}]
      [("Error generating from audio:", PlainError "quota exceeded")].
Proof. reflexivity. Qed.

Example second_file_is_unexpected :
  serve (replies "ok") strictLimit POST_generate_from_image
    (Multipart {| fields := [("prompt", VString "x")]; files := [png; png] |})
  = answered 400 (messageBody "Unexpected field") [] [].
Proof. reflexivity. Qed.

(** *** Trimming *)

Lemma trimStart_allWhiteSpace (s : string) :
  allWhiteSpace (trimStart s) = allWhiteSpace s.
Proof.
  induction s as [| c s IH]; simpl; [reflexivity |].
  destruct (isWhiteSpace c) eqn:Hc; simpl.
  - exact IH.
  - now rewrite Hc.
Qed.

Lemma trimEnd_empty (s : string) :
  trimEnd s = "" <-> allWhiteSpace s = true.
Proof.
  induction s as [| c s IH]; simpl.
  - tauto.
  - destruct (trimEnd s) as [| d t] eqn:Ht.
    + destruct (isWhiteSpace c); simpl.
      * split; intros _; [now apply IH | reflexivity].
      * split; discriminate.
    + split; [discriminate |].
      intros H. apply andb_true_iff in H as [_ H].
      apply IH in H. discriminate.
Qed.

Lemma trim_empty (s : string) : trim s = "" <-> allWhiteSpace s = true.
Proof.
  unfold trim. rewrite trimEnd_empty. now rewrite trimStart_allWhiteSpace.
Qed.

Lemma length_zero_empty (s : string) : String.length s = 0 <-> s = "".
Proof. destruct s; simpl; split; (reflexivity || discriminate). Qed.

Lemma isPromptValid_string (s : string) :
  isPromptValid (VString s) = negb (allWhiteSpace s).
Proof.
  unfold isPromptValid. simpl.
  destruct (allWhiteSpace s) eqn:Hs; simpl.
  - apply trim_empty in Hs. now rewrite Hs.
  - destruct (trim s) eqn:Ht; [| reflexivity].
    apply trim_empty in Ht. congruence.
Qed.

(** C5.  [isPromptValid] holds exactly of the strings whose trimmed form has
    length at least 1, which are the strings with a character that is not
    white space; it fails on the empty string, on strings of white space
    only, on [null], on [undefined] and on every value that is not a
    string. *)
Theorem isPromptValid_spec :
  (forall v, isPromptValid v = true
             <-> exists s, v = VString s /\ 1 <= String.length (trim s))
  /\ (forall s, isPromptValid (VString s) = true <-> allWhiteSpace s = false)
  /\ isPromptValid (VString "") = false
  /\ (forall s, allWhiteSpace s = true -> isPromptValid (VString s) = false)
  /\ isPromptValid VNull = false
  /\ isPromptValid VUndefined = false
  /\ (forall v, (forall s, v <> VString s) -> isPromptValid v = false).
Proof.
  repeat split; try reflexivity.
  - intros H. destruct v; try discriminate H.
    exists s. split; [reflexivity |].
    unfold isPromptValid in H. simpl in H.
    apply Nat.ltb_lt in H. lia.
  - intros [s [-> H]]. unfold isPromptValid. simpl.
    apply Nat.ltb_lt. lia.
  - rewrite isPromptValid_string. now destruct (allWhiteSpace s).
  - rewrite isPromptValid_string. now intros ->.
  - intros s H. rewrite isPromptValid_string. now rewrite H.
  - intros v H. destruct v; try reflexivity.
    now elim (H s).
Qed.

Lemma isPromptValid_spec_witness :
  isPromptValid (VString "  hi  ") = true
  /\ isPromptValid (VString (String "009" "   ")) = false
  /\ isPromptValid (VNumber "42") = false.
Proof.
  destruct isPromptValid_spec as (Hiff & _ & _ & Hws & _ & _ & Hother).
  split; [| split].
  - apply Hiff. exists "  hi  ". split; [reflexivity | simpl; lia].
  - apply Hws. reflexivity.
  - apply Hother. intros s. discriminate.
Defined.

(** *** The type check of the upload gate *)

Lemma includes_In (xs : list string) (x : string) :
  includes xs x = true <-> In x xs.
Proof.
  induction xs as [| y ys IH]; simpl.
  - split; [discriminate | tauto].
  - rewrite orb_true_iff, IH, String.eqb_eq. tauto.
Qed.

Lemma fileFilter_lowered (allowed : list string) (file : FileInfo) :
  fileFilter allowed file
  = if includes allowed (toLowerCase (declaredType file))
    then inr true
    else inl (PlainError ("Invalid file type. Allowed types: "
                            ++ join ", " allowed)).
Proof.
  unfold fileFilter, declaredType.
  destruct (mimetype file); simpl;
    match goal with |- context [includes ?a ?b] => destruct (includes a b) end;
    reflexivity.
Qed.

(** C2.  For every category and every declared content type, a missing one
    read as the empty string, [fileFilter] accepts the file if and only if
    the lower-cased type is in the allow-list of the category; otherwise
    it fails with the message "Invalid file type. Allowed types: " followed
    by that allow-list joined with ", ". *)
Theorem fileFilter_classifies (c : Category) (file : FileInfo) :
  (fileFilter (allowList c) file = inr true
   <-> In (toLowerCase (declaredType file)) (allowList c))
  /\ (~ In (toLowerCase (declaredType file)) (allowList c)
      -> fileFilter (allowList c) file
         = inl (PlainError ("Invalid file type. Allowed types: "
                              ++ join ", " (allowList c)))).
Proof.
  rewrite fileFilter_lowered, <- includes_In.
  destruct (includes (allowList c) (toLowerCase (declaredType file))).
  - split; [tauto | intros H; now elim H].
  - split; [split; discriminate | reflexivity].
Qed.

Lemma fileFilter_classifies_witness :
  fileFilter IMAGE_MIME_TYPES
    {| fieldname := "image"; originalname := "cat.PNG"; mimetype := Some "Image/PNG" |}
  = inr true
  /\ fileFilter AUDIO_MIME_TYPES
       {| fieldname := "audio"; originalname := "clip"; mimetype := None |}
     = inl (PlainError
              "Invalid file type. Allowed types: audio/mpeg, audio/mp3, audio/wav, audio/x-wav, audio/webm, audio/ogg").
Proof.
  split.
  - apply (fileFilter_classifies Image). simpl. tauto.
  - apply (fileFilter_classifies Audio). simpl.
    intros H. repeat (destruct H as [H | H]; [discriminate H |]). exact H.
Defined.

Example rejection_messages :
  map (fun c => "Invalid file type. Allowed types: " ++ join ", " (allowList c))
    [Image; Document; Audio]
  = ["Invalid file type. Allowed types: image/png, image/jpeg, image/jpg, image/webp";
     "Invalid file type. Allowed types: application/pdf, application/msword, application/vnd.openxmlformats-officedocument.wordprocessingml.document, text/plain";
     "Invalid file type. Allowed types: audio/mpeg, audio/mp3, audio/wav, audio/x-wav, audio/webm, audio/ogg"].
Proof. reflexivity. Qed.

(** *** The upload gate *)

Section Gate.

Variable signalsLimit : N -> N -> bool.

(** What is assumed of the size test of the multipart parser: a part
    longer than the limit signals it, a part shorter than the limit does
    not.  Nothing is assumed of a part of exactly [limit] bytes. *)
Hypothesis signals_above :
  forall limit n, (limit < n)%N -> signalsLimit limit n = true.
Hypothesis silent_below :
  forall limit n, (n < limit)%N -> signalsLimit limit n = false.

Lemma createUploadMiddleware_completes fieldName allowed req :
  (exists req', createUploadMiddleware signalsLimit fieldName allowed req quiet
                = (Normal req', quiet))
  \/ (exists m, createUploadMiddleware signalsLimit fieldName allowed req quiet
                = (Returned, answered 400 (messageBody m) [] [])).
Proof.
  unfold createUploadMiddleware.
  destruct (Multer.single _ _ _ _ req) as [err | req'].
  - right. eexists. reflexivity.
  - left. exists req'. reflexivity.
Qed.

Lemma createUploadMiddleware_next fieldName allowed req req' :
  createUploadMiddleware signalsLimit fieldName allowed req quiet
  = (Normal req', quiet)
  <-> Multer.single signalsLimit fieldName (fileFilter allowed)
        MAX_FILE_SIZE_BYTES req = inr req'.
Proof.
  unfold createUploadMiddleware.
  destruct (Multer.single _ _ _ _ req) as [err | r].
  - split; discriminate.
  - unfold ret. split; intros H; now inversion H.
Qed.


(** The first file part, sent under the field of the middleware with a
    type of the allow-list, decides through the size test alone whether the
    upload fails for its size. *)
Lemma first_part_too_large fieldName allowed form part rest :
  files form = part :: rest ->
  fieldname (info part) = fieldName ->
  In (toLowerCase (declaredType (info part))) allowed ->
  signalsLimit MAX_FILE_SIZE_BYTES (byteLength (stream part)) = true ->
  createUploadMiddleware signalsLimit fieldName allowed
    (express_json (Multipart form)) quiet
  = (Returned,
     answered 400 (messageBody "File size exceeds 5MB limit") [] []).
Proof.
  intros Hfiles Hfield Htype Hsize.
  unfold createUploadMiddleware, Multer.single. simpl.
  rewrite Hfiles. simpl.
  rewrite Hfield, String.eqb_refl. simpl.
  rewrite fileFilter_lowered.
  apply includes_In in Htype. rewrite Htype, Hsize.
  reflexivity.
Qed.

(** A form whose only file part is sent under the field of the middleware,
    with a type of the allow-list and a body the size test lets through,
    passes the gate: the handler sees the text fields as [req.body] and the
    part, whole, as [req.file]. *)
Lemma single_part_passes fieldName allowed form part :
  files form = [part] ->
  fieldname (info part) = fieldName ->
  In (toLowerCase (declaredType (info part))) allowed ->
  signalsLimit MAX_FILE_SIZE_BYTES (byteLength (stream part)) = false ->
  createUploadMiddleware signalsLimit fieldName allowed
    (express_json (Multipart form)) quiet
  = (Normal {| payload := Multipart form;
               body := VObject (fields form);
               file := Some {| details := info part;
                               buffer := stream part;
                               size := byteLength (stream part) |} |},
     quiet).
Proof.
  intros Hfiles Hfield Htype Hsize.
  unfold createUploadMiddleware, Multer.single. simpl.
  rewrite Hfiles. simpl.
  rewrite Hfield, String.eqb_refl. simpl.
  rewrite fileFilter_lowered.
  apply includes_In in Htype. rewrite Htype, Hsize.
  reflexivity.
Qed.

(** So does every such part shorter than the limit. *)
Lemma small_file_passes fieldName allowed form part :
  files form = [part] ->
  fieldname (info part) = fieldName ->
  In (toLowerCase (declaredType (info part))) allowed ->
  (byteLength (stream part) < MAX_FILE_SIZE_BYTES)%N ->
  exists req,
    createUploadMiddleware signalsLimit fieldName allowed
      (express_json (Multipart form)) quiet
    = (Normal req, quiet)
    /\ body req = VObject (fields form)
    /\ option_map buffer (file req) = Some (stream part).
Proof.
  intros Hfiles Hfield Htype Hsize.
  eexists. split; [| split].
  - apply (single_part_passes fieldName allowed form part Hfiles Hfield Htype).
    now apply silent_below.
  - reflexivity.
  - reflexivity.
Qed.

(** A part whose type is outside the allow-list fails the gate with the
    message of the type check, whatever its size. *)
Lemma first_part_wrong_type fieldName allowed form part rest :
  files form = part :: rest ->
  fieldname (info part) = fieldName ->
  ~ In (toLowerCase (declaredType (info part))) allowed ->
  createUploadMiddleware signalsLimit fieldName allowed
    (express_json (Multipart form)) quiet
  = (Returned,
     answered 400
       (messageBody ("Invalid file type. Allowed types: " ++ join ", " allowed))
       [] []).
Proof.
  intros Hfiles Hfield Htype.
  unfold createUploadMiddleware, Multer.single. simpl.
  rewrite Hfiles. simpl.
  rewrite Hfield, String.eqb_refl. simpl.
  rewrite fileFilter_lowered.
  destruct (includes allowed _) eqn:Hin.
  - apply includes_In in Hin. now elim Htype.
  - reflexivity.
Qed.

Lemma uploadOf_routeOf (c : Category) :
  uploadOf signalsLimit (routeOf c)
  = Some (createUploadMiddleware signalsLimit (fieldOf c) (allowList c)).
Proof. destruct c; reflexivity. Qed.

(** C3 (amended).  On an attachment route, a multipart request whose first
    file part is sent under the field of the route, with a declared type of
    the allow-list and more than 5 * 1024 * 1024 bytes, is answered by the
    upload middleware itself, which never calls [next()]: the one response
    is 400 with the message "File size exceeds 5MB limit", and the handler
    and the generation service are not reached. *)
Theorem oversized_file_rejected ai (c : Category) form part rest :
  files form = part :: rest ->
  fieldname (info part) = fieldOf c ->
  In (toLowerCase (declaredType (info part))) (allowList c) ->
  (5 * 1024 * 1024 < byteLength (stream part))%N ->
  (exists upload,
      uploadOf signalsLimit (routeOf c) = Some upload
      /\ upload (express_json (Multipart form)) quiet
         = (Returned,
            answered 400 (messageBody "File size exceeds 5MB limit") [] []))
  /\ serve ai signalsLimit (routeOf c) (Multipart form)
     = answered 400 (VObject [("message", VString "File size exceeds 5MB limit")])
         [] [].
Proof.
  intros Hfiles Hfield Htype Hsize.
  assert (Hgate := first_part_too_large (fieldOf c) (allowList c) form part rest
                     Hfiles Hfield Htype
                     (signals_above MAX_FILE_SIZE_BYTES _ Hsize)).
  split.
  - eexists. split; [apply uploadOf_routeOf | exact Hgate].
  - unfold serve, app.
    destruct c; simpl in *;
      unfold uploadImage, uploadDocument, uploadAudio, bind;
      rewrite Hgate; reflexivity.
Qed.

End Gate.

(** *** The route handlers *)

Ltac run_handler :=
  unfold generate_text, generate_from_image, generate_from_document,
    generate_from_audio, try_catch, bind, res_status_json, return_, ret,
    generateContent, console_error;
  simpl.

Section Routes.

Variable ai : GenerateContentParams -> Outcome.
Variable signalsLimit : N -> N -> bool.

(** Once the gate is passed, serving the request is running the handler. *)
Lemma app_after_gate route p req :
  passesGate signalsLimit route p req ->
  app ai signalsLimit route p quiet = handlerOf ai route req quiet.
Proof.
  unfold passesGate, app.
  destruct route; simpl; intros H;
    solve [ now subst req | unfold bind; now rewrite H ].
Qed.

(** Every handler checks the prompt first. *)
Lemma handler_invalid_prompt route req :
  isPromptValid (promptOf req) = false ->
  handlerOf ai route req quiet
  = (Returned, answered 400 (messageBody "prompt is required") [] []).
Proof.
  intros H. destruct route; simpl; run_handler; rewrite H; reflexivity.
Qed.

(** With a valid prompt, the handler of an attachment route asks for the
    file next. *)
Lemma handler_missing_file (c : Category) req :
  isPromptValid (promptOf req) = true ->
  file req = None ->
  handlerOf ai (routeOf c) req quiet
  = (Returned,
     answered 400
       (messageBody
          match c with
          | Image => "image file is required"
          | Document => "document file is required"
          | Audio => "audio file is required"
          end)
       [] []).
Proof.
  intros Hp Hf.
  destruct c; simpl; run_handler; rewrite Hp, Hf; reflexivity.
Qed.

(** With a valid prompt and the attachment at hand, the handler calls the
    generation service once, with the prompt as text, and answers from
    what the call gives. *)
Lemma handler_generates route req :
  isPromptValid (promptOf req) = true ->
  hasAttachment route req ->
  exists params label,
    textSegment params = Some (promptOf req)
    /\ handlerOf ai route req quiet
       = (Normal tt,
          match ai params with
          | Resolved text => answered 200 (resultBody text) [params] []
          | Rejected e =>
              answered 500 (messageBody (message e)) [params] [(label, e)]
          end).
Proof.
  intros Hp Hf.
  assert (Hs : exists s, promptOf req = VString s).
  { destruct (promptOf req); try discriminate Hp. now eexists. }
  destruct Hs as [s Hs].
  destruct route; simpl in *; run_handler; rewrite Hp; simpl.
  1: rewrite Hs.
  2-4: destruct (file req) as [f |]; [| now elim Hf]; rewrite Hs; simpl.
  all: match goal with |- context [ai ?q] => exists q end;
    eexists; split; [reflexivity |];
    match goal with |- context [ai ?q] => destruct (ai q) end; reflexivity.
Qed.

End Routes.

(** *** The routes *)

Section Pipeline.

Variable ai : GenerateContentParams -> Outcome.
Variable signalsLimit : N -> N -> bool.

Lemma serve_after_gate route p req :
  passesGate signalsLimit route p req ->
  serve ai signalsLimit route p = snd (handlerOf ai route req quiet).
Proof.
  intros H. unfold serve. now rewrite (app_after_gate ai signalsLimit route p req H).
Qed.

Lemma serve_invalid_prompt route p req :
  passesGate signalsLimit route p req ->
  isPromptValid (promptOf req) = false ->
  serve ai signalsLimit route p
  = answered 400 (messageBody "prompt is required") [] [].
Proof.
  intros Hg Hp.
  rewrite (serve_after_gate route p req Hg).
  now rewrite handler_invalid_prompt.
Qed.

Lemma serve_generates route p req :
  reachesGeneration signalsLimit route p req ->
  exists params label,
    textSegment params = Some (promptOf req)
    /\ serve ai signalsLimit route p
       = match ai params with
         | Resolved text => answered 200 (resultBody text) [params] []
         | Rejected e =>
             answered 500 (messageBody (message e)) [params] [(label, e)]
         end.
Proof.
  intros (Hg & Hp & Hf).
  destruct (handler_generates ai route req Hp Hf) as (params & label & Ht & Hh).
  exists params, label. split; [exact Ht |].
  rewrite (serve_after_gate route p req Hg). now rewrite Hh.
Qed.

(** The handler reads the prompt the caller sent. *)
Lemma prompt_after_gate route p req :
  passesGate signalsLimit route p req ->
  isPromptValid (promptOf req) = true ->
  promptOf req = suppliedPrompt p.
Proof.
  unfold passesGate. intros Hg Hp.
  destruct (uploadOf signalsLimit route) as [upload |] eqn:Hu.
  - assert (Hs : exists fieldName allowed,
               upload = createUploadMiddleware signalsLimit fieldName allowed).
    { destruct route; inversion Hu; subst; do 2 eexists; reflexivity. }
    destruct Hs as (fieldName & allowed & ->).
    apply createUploadMiddleware_next in Hg.
    unfold Multer.single in Hg. simpl in Hg.
    destruct p as [v | form |]; simpl in Hg.
    + now inversion Hg.
    + destruct (Multer.receive _ _ _ _ _ _ _) as [err | stored];
        [discriminate Hg | now inversion Hg].
    + now inversion Hg.
  - subst req. destruct p as [v | form |]; try reflexivity.
    discriminate Hp.
Qed.

(** C1.  What the code does where the default prompt was meant to apply:
    on the document and audio routes (as on the image route), a request
    that passes the gate without a [prompt] field is answered 400 "prompt
    is required" and the generation service is not called; the default
    text written after [??] is never used. *)
Theorem default_prompt_unreachable (c : Category) p req :
  passesGate signalsLimit (routeOf c) p req ->
  promptOf req = VUndefined ->
  serve ai signalsLimit (routeOf c) p
  = answered 400 (VObject [("message", VString "prompt is required")]) [] [].
Proof.
  intros Hg Hp. apply (serve_invalid_prompt _ p req Hg).
  now rewrite Hp.
Qed.

(** C4.  On [POST /generate-from-image], a request that passes the gate
    with no valid prompt is answered 400 "prompt is required", whether its
    image is there or not: the prompt is checked before the file. *)
Theorem image_prompt_checked_first p req :
  passesGate signalsLimit POST_generate_from_image p req ->
  isPromptValid (promptOf req) = false ->
  serve ai signalsLimit POST_generate_from_image p
  = answered 400 (VObject [("message", VString "prompt is required")]) [] [].
Proof.
  intros Hg Hp. exact (serve_invalid_prompt _ p req Hg Hp).
Qed.

(** C6.  On an attachment route, a request that passes the gate with a
    valid prompt but without a file under the field of the route is
    answered 400 with "image file is required", "document file is
    required" or "audio file is required" according to the route, and the
    generation service is not called. *)
Theorem missing_file_rejected (c : Category) p req :
  passesGate signalsLimit (routeOf c) p req ->
  isPromptValid (promptOf req) = true ->
  file req = None ->
  serve ai signalsLimit (routeOf c) p
  = answered 400
      (VObject
         [("message",
           VString match c with
                   | Image => "image file is required"
                   | Document => "document file is required"
                   | Audio => "audio file is required"
                   end)])
      [] [].
Proof.
  intros Hg Hp Hf.
  rewrite (serve_after_gate _ p req Hg).
  now rewrite (handler_missing_file ai c req Hp Hf).
Qed.

(** C7.  A request that reaches the generation service makes one call, and
    when that call returns the text [t] the one response is 200 with body
    [{ result: t }], [t] unchanged. *)
Theorem result_verbatim route p req :
  reachesGeneration signalsLimit route p req ->
  exists params,
    calls (serve ai signalsLimit route p) = [params]
    /\ forall t, ai params = Resolved t ->
         serve ai signalsLimit route p
         = answered 200 (VObject [("result", VString t)]) [params] [].
Proof.
  intros H.
  destruct (serve_generates route p req H) as (params & label & _ & Hs).
  exists params. split.
  - rewrite Hs. now destruct (ai params).
  - intros t Ht. now rewrite Hs, Ht.
Qed.

(** C8.  A request that reaches the generation service makes one call, and
    when that call throws an error the one response is 500 with body
    [{ message }] carrying the message of the error unchanged; the call is
    not made again. *)
Theorem upstream_failure_surfaced route p req :
  reachesGeneration signalsLimit route p req ->
  exists params,
    calls (serve ai signalsLimit route p) = [params]
    /\ forall e, ai params = Rejected e ->
         responses (serve ai signalsLimit route p)
         = [{| status := 500;
               json := VObject [("message", VString (message e))] |}].
Proof.
  intros H.
  destruct (serve_generates route p req H) as (params & label & _ & Hs).
  exists params. split.
  - rewrite Hs. now destruct (ai params).
  - intros e He. now rewrite Hs, He.
Qed.

(** C9.  A request that reaches the generation service sent a string as
    its prompt, and the text handed to the service is that string,
    character for character. *)
Theorem prompt_forwarded_verbatim route p req :
  reachesGeneration signalsLimit route p req ->
  exists s params,
    suppliedPrompt p = VString s
    /\ calls (serve ai signalsLimit route p) = [params]
    /\ textSegment params = Some (VString s).
Proof.
  intros H.
  destruct (serve_generates route p req H) as (params & label & Ht & Hs).
  destruct H as (Hg & Hp & _).
  rewrite (prompt_after_gate route p req Hg Hp) in Ht.
  assert (Hstr : exists s, suppliedPrompt p = VString s).
  { rewrite <- (prompt_after_gate route p req Hg Hp).
    destruct (promptOf req); try discriminate Hp. now eexists. }
  destruct Hstr as [s Hstr].
  exists s, params. repeat split.
  - exact Hstr.
  - rewrite Hs. now destruct (ai params).
  - now rewrite Ht, Hstr.
Qed.

End Pipeline.

(** *** The properties at sample requests *)

Lemma strictLimit_above limit n : (limit < n)%N -> strictLimit limit n = true.
Proof. intros H. now apply N.ltb_lt. Qed.


Lemma reachLimit_above limit n : (limit < n)%N -> reachLimit limit n = true.
Proof. intros H. apply N.leb_le. lia. Qed.

Lemma reachLimit_below limit n : (n < limit)%N -> reachLimit limit n = false.
Proof. intros H. apply N.leb_gt. lia. Qed.

Lemma default_prompt_unreachable_witness :
  serve (replies "a summary") strictLimit POST_generate_from_document
    (upload [] pdf)
  = answered 400 (messageBody "prompt is required") [] []
  /\ serve (replies "a transcript") strictLimit POST_generate_from_audio
       (upload [] mp3)
     = answered 400 (messageBody "prompt is required") [] [].
Proof.
  split.
  - eapply (default_prompt_unreachable _ strictLimit Document);
      [unfold passesGate; simpl; reflexivity | reflexivity].
  - eapply (default_prompt_unreachable _ strictLimit Audio);
      [unfold passesGate; simpl; reflexivity | reflexivity].
Defined.

Lemma image_prompt_checked_first_witness :
  serve (replies "a caption") strictLimit POST_generate_from_image
    (upload [] png)
  = answered 400 (messageBody "prompt is required") [] []
  /\ serve (replies "a caption") strictLimit POST_generate_from_image
       (Multipart {| fields := []; files := [] |})
     = answered 400 (messageBody "prompt is required") [] [].
Proof.
  split;
    eapply (image_prompt_checked_first _ strictLimit);
    [unfold passesGate; simpl; reflexivity | reflexivity
    |unfold passesGate; simpl; reflexivity | reflexivity].
Defined.

Lemma missing_file_rejected_witness :
  serve (replies "a summary") strictLimit POST_generate_from_document
    (Multipart {| fields := [("prompt", VString "summarize")]; files := [] |})
  = answered 400 (messageBody "document file is required") [] []
  /\ serve (replies "a caption") strictLimit POST_generate_from_image
       (Json (VObject [("prompt", VString "describe")]))
     = answered 400 (messageBody "image file is required") [] [].
Proof.
  split.
  - eapply (missing_file_rejected _ strictLimit Document);
      [unfold passesGate; simpl; reflexivity | reflexivity | reflexivity].
  - eapply (missing_file_rejected _ strictLimit Image);
      [unfold passesGate; simpl; reflexivity | reflexivity | reflexivity].
Defined.

Lemma result_verbatim_witness :
  exists params,
    calls (serve (replies "hi there") strictLimit POST_generate_text
             (Json (VObject [("prompt", VString "hello")]))) = [params]
    /\ forall t, replies "hi there" params = Resolved t ->
         serve (replies "hi there") strictLimit POST_generate_text
           (Json (VObject [("prompt", VString "hello")]))
         = answered 200 (resultBody t) [params] [].
Proof.
  eapply (result_verbatim (replies "hi there") strictLimit POST_generate_text).
  unfold reachesGeneration, passesGate. simpl.
  split; [reflexivity | split; [reflexivity | exact I]].
Defined.

Lemma upstream_failure_surfaced_witness :
  exists params,
    calls (serve (fails "quota exceeded") strictLimit POST_generate_from_image
             (upload [("prompt", VString "describe")] png)) = [params]
    /\ forall e, fails "quota exceeded" params = Rejected e ->
         responses
           (serve (fails "quota exceeded") strictLimit POST_generate_from_image
              (upload [("prompt", VString "describe")] png))
         = [{| status := 500; json := messageBody (message e) |}].
Proof.
  eapply (upstream_failure_surfaced (fails "quota exceeded") strictLimit
            POST_generate_from_image).
  unfold reachesGeneration, passesGate. simpl.
  split; [reflexivity | split; [reflexivity | discriminate]].
Defined.

Lemma prompt_forwarded_verbatim_witness :
  exists s params,
    suppliedPrompt (upload [("prompt", VString "  hi  ")] pdf) = VString s
    /\ calls (serve (replies "a summary") strictLimit POST_generate_from_document
                (upload [("prompt", VString "  hi  ")] pdf)) = [params]
    /\ textSegment params = Some (VString s).
Proof.
  eapply (prompt_forwarded_verbatim (replies "a summary") strictLimit
            POST_generate_from_document).
  unfold reachesGeneration, passesGate. simpl.
  split; [reflexivity | split; [reflexivity | discriminate]].
Defined.

Example padded_prompt_forwarded :
  calls (serve (replies "a summary") strictLimit POST_generate_from_document
           (upload [("prompt", VString "  hi  ")] pdf))
  = [{| model := "gemini-2.5-flash";
        contents := Parts [TextPart "text" (VString "  hi  ");
                           InlineData "JVBERg==" (Some "application/pdf")] |}].
Proof. reflexivity. Qed.

Lemma oversized_file_rejected_witness :
  (5 * 1024 * 1024 < byteLength (stream oversizedPng))%N
  /\ serve (replies "a caption") strictLimit POST_generate_from_image
       (upload [("prompt", VString "describe")] oversizedPng)
     = answered 400 (messageBody "File size exceeds 5MB limit") [] [].
Proof.
  assert (Hsize : (5 * 1024 * 1024 < byteLength (stream oversizedPng))%N)
    by (vm_compute; reflexivity).
  split; [exact Hsize |].
  apply (oversized_file_rejected strictLimit strictLimit_above
           (replies "a caption") Image
           {| fields := [("prompt", VString "describe")]; files := [oversizedPng] |}
           oversizedPng []).
  - reflexivity.
  - reflexivity.
  - simpl. tauto.
  - exact Hsize.
Defined.

(** C3, as first stated, fails: a file part of 5 * 1024 * 1024 + 1 bytes
    declared as [text/html] on the image route is refused by the type
    check, which is made before the bytes are read, so the response carries
    the message of the type check and not the one of the size limit. *)
Lemma oversized_wrong_type_counterexample :
  (5 * 1024 * 1024 < byteLength (stream oversizedHtml))%N
  /\ serve (replies "a caption") strictLimit POST_generate_from_image
       (upload [("prompt", VString "describe")] oversizedHtml)
     = answered 400
         (messageBody
            "Invalid file type. Allowed types: image/png, image/jpeg, image/jpg, image/webp")
         [] []
  /\ serve (replies "a caption") strictLimit POST_generate_from_image
       (upload [("prompt", VString "describe")] oversizedHtml)
     <> answered 400 (messageBody "File size exceeds 5MB limit") [] [].
Proof.
  assert (Hserve :
            serve (replies "a caption") strictLimit POST_generate_from_image
              (upload [("prompt", VString "describe")] oversizedHtml)
            = answered 400
                (messageBody
                   "Invalid file type. Allowed types: image/png, image/jpeg, image/jpg, image/webp")
                [] []).
  { unfold serve, app, uploadImage, bind, upload.
    rewrite (first_part_wrong_type strictLimit "image" IMAGE_MIME_TYPES
               {| fields := [("prompt", VString "describe")];
                  files := [oversizedHtml] |} oversizedHtml []).
    - reflexivity.
    - reflexivity.
    - reflexivity.
    - simpl. intros H.
      repeat (destruct H as [H | H]; [discriminate H |]). exact H. }
  split; [vm_compute; reflexivity |].
  split; [exact Hserve |].
  rewrite Hserve. discriminate.
Qed.

(** *** The file of exactly 5 * 1024 * 1024 bytes

    The source fixes the limit, not the comparison: both size tests above
    meet what the gate properties assume, and they disagree on a file whose
    size equals the limit. *)

Lemma boundary_file_under_strictLimit :
  byteLength (stream boundaryPng) = MAX_FILE_SIZE_BYTES
  /\ exists req,
       uploadImage strictLimit (express_json (upload [] boundaryPng)) quiet
       = (Normal req, quiet)
       /\ option_map size (file req) = Some MAX_FILE_SIZE_BYTES.
Proof.
  assert (Hsize : byteLength (stream boundaryPng) = MAX_FILE_SIZE_BYTES)
    by (vm_compute; reflexivity).
  split; [exact Hsize |].
  eexists. split.
  - apply (single_part_passes strictLimit "image" IMAGE_MIME_TYPES
             {| fields := []; files := [boundaryPng] |} boundaryPng).
    + reflexivity.
    + reflexivity.
    + simpl. tauto.
    + rewrite Hsize. reflexivity.
  - change (Some (byteLength (stream boundaryPng)) = Some MAX_FILE_SIZE_BYTES).
    now rewrite Hsize.
Qed.

Lemma boundary_file_under_reachLimit :
  uploadImage reachLimit (express_json (upload [] boundaryPng)) quiet
  = (Returned, answered 400 (messageBody "File size exceeds 5MB limit") [] []).
Proof.
  assert (Hsize : byteLength (stream boundaryPng) = MAX_FILE_SIZE_BYTES)
    by (vm_compute; reflexivity).
  apply (first_part_too_large reachLimit "image" IMAGE_MIME_TYPES
           {| fields := []; files := [boundaryPng] |} boundaryPng []).
  - reflexivity.
  - reflexivity.
  - simpl. tauto.
  - rewrite Hsize. reflexivity.
Qed.

(** ** Further properties *)

(** *** Every request, whatever it holds *)

Lemma route_cases (route : Route) :
  route = POST_generate_text \/ exists c, route = routeOf c.
Proof.
  destruct route;
    [left; reflexivity
    | right; exists Image | right; exists Document | right; exists Audio];
    reflexivity.
Qed.

Section Totality.

Variable ai : GenerateContentParams -> Outcome.
Variable signalsLimit : N -> N -> bool.

(** The upload middleware of a route either lets the request through or
    answers 400 itself. *)
Lemma gate_completes route p :
  (exists req, passesGate signalsLimit route p req)
  \/ (exists upload m,
         uploadOf signalsLimit route = Some upload
         /\ upload (express_json p) quiet
            = (Returned, answered 400 (messageBody m) [] [])).
Proof.
  unfold passesGate.
  destruct (route_cases route) as [-> | [c ->]].
  - left. eexists. reflexivity.
  - rewrite uploadOf_routeOf.
    destruct (createUploadMiddleware_completes signalsLimit (fieldOf c)
                (allowList c) (express_json p)) as [[req H] | [m H]].
    + left. now exists req.
    + right. do 2 eexists. split; [reflexivity | exact H].
Qed.

(** When the upload middleware answers, the handler does not run. *)
Lemma app_gate_fails route p upload w :
  uploadOf signalsLimit route = Some upload ->
  upload (express_json p) quiet = (Returned, w) ->
  app ai signalsLimit route p quiet = (Returned, w).
Proof.
  intros Hu Hg. unfold app.
  destruct route; simpl in Hu; inversion Hu; subst upload;
    unfold bind; now rewrite Hg.
Qed.



End Totality.

(** *** What the gate lets through *)

Section Stored.

Variable signalsLimit : N -> N -> bool.
Hypothesis signals_above :
  forall limit n, (limit < n)%N -> signalsLimit limit n = true.

(** A file the upload library stores is a part it was sent under the
    expected field, accepted by the filter and let through by the size
    test, kept whole. *)
Lemma receive_stored fieldName filter limit parts :
  forall filesLeft stored stored',
    Multer.receive signalsLimit fieldName filter limit filesLeft parts stored
    = inr stored' ->
    stored' = stored
    \/ exists part,
         In part parts
         /\ fieldname (info part) = fieldName
         /\ filter (info part) = inr true
         /\ signalsLimit limit (byteLength (stream part)) = false
         /\ stored' = Some {| details := info part;
                              buffer := stream part;
                              size := byteLength (stream part) |}.
Proof.
  induction parts as [| p rest IH]; intros filesLeft stored stored' H; simpl in H.
  - left. now inversion H.
  - destruct (String.eqb (fieldname (info p)) fieldName) eqn:Hfield;
      simpl in H; [| discriminate H].
    destruct (filesLeft <=? 0)%N; [discriminate H |].
    destruct (filter (info p)) as [err | [|]] eqn:Hfilter; [discriminate H | |].
    + destruct (signalsLimit limit (byteLength (stream p))) eqn:Hsize;
        [discriminate H |].
      apply IH in H. right.
      destruct H as [-> | (part & Hin & Hrest)].
      * exists p. apply String.eqb_eq in Hfield.
        repeat split; try assumption. now left.
      * exists part. split; [now right | exact Hrest].
    + apply IH in H.
      destruct H as [-> | (part & Hin & Hrest)]; [now left | right].
      exists part. split; [now right | exact Hrest].
Qed.

(** A file that passed the gate of an attachment route is such a part of
    the request. *)
Lemma gate_stores_part (c : Category) p req f :
  passesGate signalsLimit (routeOf c) p req ->
  file req = Some f ->
  exists form part,
    p = Multipart form
    /\ In part (files form)
    /\ fieldname (info part) = fieldOf c
    /\ fileFilter (allowList c) (info part) = inr true
    /\ signalsLimit MAX_FILE_SIZE_BYTES (byteLength (stream part)) = false
    /\ f = {| details := info part;
              buffer := stream part;
              size := byteLength (stream part) |}.
Proof.
  unfold passesGate. rewrite uploadOf_routeOf. intros Hg Hf.
  apply createUploadMiddleware_next in Hg.
  unfold Multer.single in Hg. simpl in Hg.
  destruct p as [v | form |]; simpl in Hg;
    try (inversion Hg; subst req; discriminate Hf).
  destruct (Multer.receive _ _ _ _ _ _ _) as [err | stored] eqn:Hr;
    [discriminate Hg |].
  inversion Hg; subst req; simpl in Hf; subst stored.
  apply receive_stored in Hr.
  destruct Hr as [Hr | (part & Hin & Hfield & Hfilter & Hsize & Hr)];
    [discriminate Hr |].
  inversion Hr. exists form, part. now repeat split.
Qed.


Lemma within_limit n :
  signalsLimit MAX_FILE_SIZE_BYTES n = false -> (n <= 5 * 1024 * 1024)%N.
Proof.
  intros H.
  destruct (N.le_gt_cases n (5 * 1024 * 1024)) as [Hle | Hgt]; [exact Hle |].
  apply (signals_above MAX_FILE_SIZE_BYTES) in Hgt. congruence.
Qed.


End Stored.

(** *** What the generation service is asked *)

Lemma valid_prompt_is_string (v : value) :
  isPromptValid v = true -> exists s, v = VString s.
Proof. destruct v; try discriminate. now eexists. Qed.

Lemma text_call ai req s :
  promptOf req = VString s ->
  isPromptValid (VString s) = true ->
  calls (snd (generate_text ai req quiet))
  = [{| model := "gemini-2.5-flash"; contents := Single (VString s) |}].
Proof.
  intros Hs Hp. run_handler. rewrite Hs, Hp. simpl.
  match goal with |- context [ai ?q] => destruct (ai q) end; reflexivity.
Qed.

Lemma attachment_call ai (c : Category) req s f :
  promptOf req = VString s ->
  isPromptValid (VString s) = true ->
  file req = Some f ->
  calls (snd (handlerOf ai (routeOf c) req quiet))
  = [{| model := "gemini-2.5-flash";
        contents := Parts [TextPart "text" (VString s);
                           InlineData (toBase64 (buffer f))
                             (mimetype (details f))] |}].
Proof.
  intros Hs Hp Hf.
  destruct c; simpl; run_handler; rewrite Hs, Hp, Hf; simpl;
    match goal with |- context [ai ?q] => destruct (ai q) end; reflexivity.
Qed.


Section Calls.

Variable ai : GenerateContentParams -> Outcome.
Variable signalsLimit : N -> N -> bool.
Hypothesis signals_above :
  forall limit n, (limit < n)%N -> signalsLimit limit n = true.

(** Where a call comes from: a request that passed the gate with a valid
    prompt, and with its file on an attachment route. *)
Lemma call_origin route p params :
  In params (calls (serve ai signalsLimit route p)) ->
  exists req s,
    passesGate signalsLimit route p req
    /\ suppliedPrompt p = VString s
    /\ isPromptValid (VString s) = true
    /\ ((route = POST_generate_text
         /\ params = {| model := "gemini-2.5-flash";
                        contents := Single (VString s) |})
        \/ (exists c f,
               route = routeOf c
               /\ file req = Some f
               /\ params
                  = {| model := "gemini-2.5-flash";
                       contents := Parts [TextPart "text" (VString s);
                                          InlineData (toBase64 (buffer f))
                                            (mimetype (details f))] |})).
Proof.
  intros Hin.
  destruct (gate_completes signalsLimit route p)
    as [[req Hg] | (upload & m & Hu & Hg)].
  2: { unfold serve in Hin.
       rewrite (app_gate_fails ai signalsLimit route p upload _ Hu Hg) in Hin.
       destruct Hin. }
  rewrite (serve_after_gate ai signalsLimit route p req Hg) in Hin.
  destruct (isPromptValid (promptOf req)) eqn:Hp.
  2: { rewrite (handler_invalid_prompt ai route req Hp) in Hin. destruct Hin. }
  destruct (valid_prompt_is_string _ Hp) as [s Hs].
  assert (Hsup : suppliedPrompt p = VString s).
  { now rewrite <- (prompt_after_gate signalsLimit route p req Hg Hp). }
  exists req, s. split; [exact Hg |]. split; [exact Hsup |].
  rewrite Hs in Hp. split; [exact Hp |].
  destruct (route_cases route) as [-> | [c ->]].
  - simpl in Hin. rewrite (text_call ai req s Hs Hp) in Hin.
    destruct Hin as [<- | []]. now left.
  - destruct (file req) as [f |] eqn:Hf.
    2: { rewrite <- Hs in Hp.
         rewrite (handler_missing_file ai c req Hp Hf) in Hin. destruct Hin. }
    rewrite (attachment_call ai c req s f Hs Hp Hf) in Hin.
    destruct Hin as [<- | []]. right. now exists c, f.
Qed.


End Calls.

(** *** The gate and the handler together *)

Section Composition.

Variable ai : GenerateContentParams -> Outcome.
Variable signalsLimit : N -> N -> bool.
Hypothesis silent_below :
  forall limit n, (n < limit)%N -> signalsLimit limit n = false.






End Composition.

(** *** White space around a prompt *)

Lemma allWhiteSpace_trimStart (s : string) :
  allWhiteSpace s = true -> trimStart s = "".
Proof.
  induction s as [| c s IH]; simpl; [reflexivity |].
  intros H. apply andb_true_iff in H as [Hc Hs]. rewrite Hc. now apply IH.
Qed.

Lemma trimStart_padding (pre t : string) :
  allWhiteSpace pre = true -> trimStart (pre ++ t) = trimStart t.
Proof.
  induction pre as [| c pre IH]; simpl; [reflexivity |].
  intros H. apply andb_true_iff in H as [Hc Hs]. rewrite Hc. now apply IH.
Qed.

Lemma trimEnd_padding (t post : string) :
  allWhiteSpace post = true -> trimEnd (t ++ post) = trimEnd t.
Proof.
  intros H. induction t as [| c t IH]; simpl.
  - now apply trimEnd_empty.
  - now rewrite IH.
Qed.

Lemma trimStart_append (s post : string) :
  allWhiteSpace s = false -> trimStart (s ++ post) = trimStart s ++ post.
Proof.
  induction s as [| c s IH]; simpl; [discriminate |].
  destruct (isWhiteSpace c); simpl; [exact IH | reflexivity].
Qed.

Lemma trim_padding (pre s post : string) :
  allWhiteSpace pre = true ->
  allWhiteSpace post = true ->
  trim (pre ++ s ++ post) = trim s.
Proof.
  intros Hpre Hpost. unfold trim.
  rewrite (trimStart_padding pre _ Hpre).
  destruct (allWhiteSpace s) eqn:Hs.
  - rewrite (trimStart_padding s post Hs).
    now rewrite (allWhiteSpace_trimStart post Hpost), (allWhiteSpace_trimStart s Hs).
  - rewrite (trimStart_append s post Hs).
    now apply trimEnd_padding.
Qed.

(** X8.  White space around a prompt does not count: a string padded with
    white space on either side trims to the same text as the string itself
    and is a valid prompt exactly when the string is. *)
Theorem isPromptValid_padding (pre s post : string) :
  allWhiteSpace pre = true ->
  allWhiteSpace post = true ->
  trim (pre ++ s ++ post) = trim s
  /\ isPromptValid (VString (pre ++ s ++ post)) = isPromptValid (VString s).
Proof.
  intros Hpre Hpost.
  assert (Ht := trim_padding pre s post Hpre Hpost).
  split; [exact Ht |].
  unfold isPromptValid. simpl. now rewrite Ht.
Qed.

Lemma isPromptValid_padding_witness :
  trim (String "009" " " ++ "hi there" ++ String "010" "") = trim "hi there"
  /\ isPromptValid (VString (String "009" " " ++ "hi there" ++ String "010" ""))
     = isPromptValid (VString "hi there").
Proof.
  apply (isPromptValid_padding (String "009" " ") "hi there" (String "010" ""));
    reflexivity.
Defined.

(** *** The allow-lists *)

(** X9.  A declared type that equals a type of the allow-list of a
    category up to letter case is accepted by the type check of that
    category: no entry of an allow-list is out of reach of the lower-casing
    made before the comparison. *)
Theorem listed_types_accepted_in_any_case (c : Category) (t : string)
  (file : FileInfo) :
  In t (allowList c) ->
  toLowerCase (declaredType file) = toLowerCase t ->
  fileFilter (allowList c) file = inr true.
Proof.
  intros Hin Heq. rewrite fileFilter_lowered, Heq.
  destruct c; simpl in Hin;
    repeat (destruct Hin as [<- | Hin]; [reflexivity |]);
    destruct Hin.
Qed.

Lemma listed_types_accepted_in_any_case_witness :
  fileFilter AUDIO_MIME_TYPES
    {| fieldname := "audio"; originalname := "a.wav"; mimetype := Some "Audio/X-WAV" |}
  = inr true.
Proof.
  apply (listed_types_accepted_in_any_case Audio "audio/x-wav").
  - simpl. tauto.
  - reflexivity.
Defined.

Lemma type_check_accepts allowed file :
  fileFilter allowed file = inr true ->
  includes allowed (toLowerCase (declaredType file)) = true.
Proof.
  rewrite fileFilter_lowered.
  now destruct (includes allowed _).
Qed.

(** X10.  No declared type is accepted by the type checks of two
    categories: a file that the check of one category accepts is refused by
    the check of each of the other two, with the message listing their own
    allowed types. *)
Theorem categories_exclusive (c c' : Category) (file : FileInfo) :
  c <> c' ->
  fileFilter (allowList c) file = inr true ->
  fileFilter (allowList c') file
  = inl (PlainError ("Invalid file type. Allowed types: "
                       ++ join ", " (allowList c'))).
Proof.
  intros Hneq Hacc.
  apply type_check_accepts, includes_In in Hacc.
  rewrite fileFilter_lowered.
  destruct c, c'; try (now elim Hneq); simpl in Hacc;
    repeat (destruct Hacc as [<- | Hacc]; [reflexivity |]);
    destruct Hacc.
Qed.

Lemma categories_exclusive_witness :
  fileFilter IMAGE_MIME_TYPES (info pdf)
  = inl (PlainError
           "Invalid file type. Allowed types: image/png, image/jpeg, image/jpg, image/webp").
Proof.
  apply (categories_exclusive Document Image (info pdf)).
  - discriminate.
  - reflexivity.
Defined.

(** *** Start-up *)



Example startup_default_port :
  main (fun name => if String.eqb name "GEMINI_API_KEY" then Some "k" else None)
  = Listening (Some "k") (PortNumber 3000) ["Server is running on port 3000"].
Proof. reflexivity. Qed.

(** *** The inline data *)

#[local] Ltac Zify.zify_post_hook ::= Z.to_euclidean_division_equations.

Ltac enumerate_digits p n :=
  lazymatch n with
  | O => exfalso; lia
  | S ?m =>
      destruct p as [p | p |];
      [enumerate_digits p m | enumerate_digits p m | reflexivity]
  end.

Lemma base64Value_digit (d : N) :
  (d < 64)%N -> base64Value (base64Digit d) = Some d.
Proof.
  intros H. destruct d as [| p]; [reflexivity |].
  enumerate_digits p 6%nat.
Qed.

Lemma base64Digit_not_pad (d : N) :
  (d < 64)%N -> Ascii.eqb (base64Digit d) "=" = false.
Proof.
  intros H. destruct (Ascii.eqb_spec (base64Digit d) "=") as [Heq |]; [| reflexivity].
  apply base64Value_digit in H. rewrite Heq in H. discriminate H.
Qed.

Lemma list_ind3 {A} (P : list A -> Prop) :
  P [] ->
  (forall a, P [a]) ->
  (forall a b, P [a; b]) ->
  (forall a b c rest, P rest -> P (a :: b :: c :: rest)) ->
  forall l, P l.
Proof.
  intros H0 H1 H2 H3.
  fix IH 1.
  intros [| a [| b [| c rest]]].
  - exact H0.
  - apply H1.
  - apply H2.
  - apply H3, IH.
Qed.

(** Reading back four digits that stand for three bytes. *)
Lemma fromBase64_group (d0 d1 d2 d3 : N) (rest : string) :
  (d0 < 64)%N -> (d1 < 64)%N -> (d2 < 64)%N -> (d3 < 64)%N ->
  fromBase64
    (String (base64Digit d0)
       (String (base64Digit d1)
          (String (base64Digit d2) (String (base64Digit d3) rest))))
  = let n := (((d0 * 64 + d1) * 64 + d2) * 64 + d3)%N in
    match Byte.of_N (n / 65536), Byte.of_N ((n / 256) mod 256),
          Byte.of_N (n mod 256), fromBase64 rest with
    | Some a, Some b, Some c, Some bytes => Some (a :: b :: c :: bytes)
    | _, _, _, _ => None
    end.
Proof.
  intros H0 H1 H2 H3.
  cbn [fromBase64].
  rewrite !base64Value_digit, !base64Digit_not_pad by assumption.
  reflexivity.
Qed.

Lemma group_digits (x y z : N) :
  (x <= 255)%N -> (y <= 255)%N -> (z <= 255)%N ->
  let n := (x * 65536 + y * 256 + z)%N in
  (n / 262144 < 64
   /\ (n / 4096) mod 64 < 64
   /\ (n / 64) mod 64 < 64
   /\ n mod 64 < 64
   /\ ((n / 262144 * 64 + (n / 4096) mod 64) * 64 + (n / 64) mod 64) * 64
      + n mod 64 = n
   /\ n / 65536 = x
   /\ (n / 256) mod 256 = y
   /\ n mod 256 = z)%N.
Proof. intros Hx Hy Hz n. subst n. repeat split; lia. Qed.

Lemma toBase64_group (a b c : byte) (rest : list byte) :
  fromBase64 (toBase64 (a :: b :: c :: rest))
  = option_map (fun bytes => a :: b :: c :: bytes) (fromBase64 (toBase64 rest)).
Proof.
  cbn [toBase64].
  destruct (group_digits (Byte.to_N a) (Byte.to_N b) (Byte.to_N c)
              (Byte.to_N_bounded a) (Byte.to_N_bounded b) (Byte.to_N_bounded c))
    as (H0 & H1 & H2 & H3 & Hn & Ha & Hb & Hc).
  cbv zeta in *.
  rewrite fromBase64_group by assumption.
  cbv zeta. rewrite Hn, Ha, Hb, Hc, !Byte.of_to_N.
  now destruct (fromBase64 (toBase64 rest)).
Qed.

Lemma toBase64_one (a : byte) : fromBase64 (toBase64 [a]) = Some [a].
Proof.
  cbn [toBase64]. cbv zeta.
  assert (Hb := Byte.to_N_bounded a).
  set (x := Byte.to_N a) in *.
  assert (H0 : (x * 65536 / 262144 < 64)%N) by lia.
  assert (H1 : ((x * 65536 / 4096) mod 64 < 64)%N) by lia.
  assert (Hx : ((x * 65536 / 262144 * 64 + (x * 65536 / 4096) mod 64) / 16 = x)%N)
    by lia.
  cbn [fromBase64].
  rewrite !base64Value_digit by assumption.
  simpl. rewrite Hx. subst x. now rewrite Byte.of_to_N.
Qed.

Lemma toBase64_two (a b : byte) : fromBase64 (toBase64 [a; b]) = Some [a; b].
Proof.
  cbn [toBase64]. cbv zeta.
  assert (Ha := Byte.to_N_bounded a). assert (Hb := Byte.to_N_bounded b).
  set (x := Byte.to_N a) in *. set (y := Byte.to_N b) in *.
  set (n := (x * 65536 + y * 256)%N).
  assert (H0 : (n / 262144 < 64)%N) by (subst n; lia).
  assert (H1 : ((n / 4096) mod 64 < 64)%N) by (subst n; lia).
  assert (H2 : ((n / 64) mod 64 < 64)%N) by (subst n; lia).
  assert (Hx : (((n / 262144 * 64 + (n / 4096) mod 64) * 64 + (n / 64) mod 64)
                / 1024 = x)%N) by (subst n; lia).
  assert (Hy : ((((n / 262144 * 64 + (n / 4096) mod 64) * 64 + (n / 64) mod 64)
                 / 4) mod 256 = y)%N) by (subst n; lia).
  cbn [fromBase64].
  rewrite !base64Value_digit, base64Digit_not_pad by assumption.
  simpl. cbv zeta. rewrite Hx, Hy. subst x y. now rewrite !Byte.of_to_N.
Qed.

(** X12.  The inline data loses nothing: reading the base64 of a buffer
    back gives the bytes of the buffer, so two different buffers never
    yield the same data. *)
Theorem toBase64_round_trip :
  (forall bytes, fromBase64 (toBase64 bytes) = Some bytes)
  /\ (forall bytes bytes', toBase64 bytes = toBase64 bytes' -> bytes = bytes').
Proof.
  assert (Hrt : forall bytes, fromBase64 (toBase64 bytes) = Some bytes).
  { induction bytes as [| a | a b | a b c rest IH] using list_ind3.
    - reflexivity.
    - apply toBase64_one.
    - apply toBase64_two.
    - rewrite toBase64_group, IH. reflexivity. }
  split; [exact Hrt |].
  intros bytes bytes' H.
  assert (H' : Some bytes = Some bytes') by (now rewrite <- !Hrt, H).
  now inversion H'.
Qed.

(** The base64 of a buffer has four characters for every three bytes, the
    last group padded. *)
Lemma toBase64_length (bytes : list byte) :
  String.length (toBase64 bytes) = 4 * ((List.length bytes + 2) / 3).
Proof.
  induction bytes as [| a | a b | a b c rest IH] using list_ind3.
  - reflexivity.
  - reflexivity.
  - reflexivity.
  - cbn [toBase64]. cbv zeta. cbn [String.length List.length].
    rewrite IH.
    replace (S (S (S (List.length rest))) + 2) with (List.length rest + 2 + 1 * 3)
      by lia.
    rewrite Nat.div_add by discriminate. lia.
Qed.

Lemma byteLength_length (bytes : list byte) :
  byteLength bytes = N.of_nat (List.length bytes).
Proof.
  unfold byteLength.
  assert (H : forall acc,
             fold_left (fun n (_ : byte) => N.succ n) bytes acc
             = (acc + N.of_nat (List.length bytes))%N).
  { induction bytes as [| b bytes IH]; intros acc; simpl.
    - lia.
    - rewrite IH. lia. }
  now rewrite H.
Qed.

Section Size.

Variable ai : GenerateContentParams -> Outcome.
Variable signalsLimit : N -> N -> bool.
Hypothesis signals_above :
  forall limit n, (limit < n)%N -> signalsLimit limit n = true.

(** X13.  The inline data of a call is never longer than 6990508
    characters, the base64 of 5 * 1024 * 1024 bytes: four characters for
    every three bytes of the stored file, the last group padded. *)
Theorem inline_data_bounded route p params text data type :
  In params (calls (serve ai signalsLimit route p)) ->
  contents params = Parts [text; InlineData data type] ->
  (exists n,
      (n <= 5 * 1024 * 1024)%N
      /\ N.of_nat (String.length data) = (4 * ((n + 2) / 3))%N)
  /\ (N.of_nat (String.length data) <= 6990508)%N.
Proof.
  intros Hin Hc.
  destruct (call_origin ai signalsLimit route p params Hin)
    as (req & s & Hg & _ & _ & [[-> ->] | (c & f & -> & Hf & ->)]);
    [discriminate Hc |].
  inversion Hc; subst text data type. clear Hc.
  destruct (gate_stores_part signalsLimit c p req f Hg Hf)
    as (form & part & -> & _ & _ & _ & Hsize & ->).
  apply (within_limit signalsLimit signals_above) in Hsize.
  cbn [buffer]. rewrite toBase64_length.
  rewrite byteLength_length in Hsize.
  set (n := N.of_nat (List.length (stream part))) in *.
  assert (Hlen : N.of_nat (4 * ((List.length (stream part) + 2) / 3))
                 = (4 * ((n + 2) / 3))%N).
  { subst n. now rewrite Nat2N.inj_mul, Nat2N.inj_div, Nat2N.inj_add. }
  rewrite Hlen. split.
  - exists n. split; [exact Hsize | reflexivity].
  - lia.
Qed.

End Size.

(** *** The further properties at sample requests *)







Example get_root_answers :
  get_root quiet
  = (Normal tt,
     answered 200 (VObject [("message", VString "Gemini Flash API is running")])
       [] []).
Proof. reflexivity. Qed.

Lemma inline_data_bounded_witness :
  (N.of_nat (String.length "iVBORw==") <= 6990508)%N.
Proof.
  apply (inline_data_bounded (replies "a caption") strictLimit strictLimit_above
           POST_generate_from_image
           (upload [("prompt", VString "describe")] png)
           {| model := "gemini-2.5-flash";
              contents := Parts [TextPart "text" (VString "describe");
                                 InlineData "iVBORw==" (Some "image/png")] |}
           (TextPart "text" (VString "describe")) "iVBORw==" (Some "image/png")).
  - simpl. left. reflexivity.
  - reflexivity.
Defined.
